(** * Nutrition Analyzer MCP server: the lookup pipeline of [main.py]

    A shallow embedding of the three tools of [main.py] ([about],
    [validate], [analyze_nutrition]) and of the forwarder
    [fetch_nutrition_data], followed by the properties of the
    specification that concern them.

    Python values are embedded as follows.
    - A [str] is the list of its Unicode code points.
    - A value decoded from JSON is a [json] tree; a [dict] is an
      association list searched from the front, a JSON integer is a [Z],
      a JSON real is a binary64 value ([spec_float]).
    - An exception is a value of [exn]; code that can raise runs in the
      monad [M], which also threads the log of outbound HTTP requests. *)

From Stdlib Require Import List ZArith NArith Bool String Ascii Lia.
From Stdlib Require Import Floats.SpecFloat.
Import ListNotations.

Set Warnings "-register-all".
Local Open Scope Z_scope.

(** ** Python strings *)

Module PyStr.

(** A Python [str]: a sequence of code points. *)
Definition pystr := list N.

(** A literal of the source, written as a Rocq string. *)
Definition lit (s : string) : pystr :=
  List.map N_of_ascii (list_ascii_of_string s).

Fixpoint eqb (a b : pystr) : bool :=
  match a, b with
  | [], [] => true
  | x :: a', y :: b' => N.eqb x y && eqb a' b'
  | _, _ => false
  end.

(** [str.isspace] on one code point, the table CPython uses for
    [str.strip()] without argument. *)
Definition isspace (c : N) : bool :=
  ((9 <=? c) && (c <=? 13) ||
   (28 <=? c) && (c <=? 32) ||
   (c =? 133) || (c =? 160) || (c =? 5760) ||
   (8192 <=? c) && (c <=? 8202) ||
   (c =? 8232) || (c =? 8233) || (c =? 8239) || (c =? 8287) ||
   (c =? 12288))%N.

Fixpoint lstrip (s : pystr) : pystr :=
  match s with
  | [] => []
  | c :: s' => if isspace c then lstrip s' else s
  end.

Definition rstrip (s : pystr) : pystr := rev (lstrip (rev s)).

(** [s.strip()] *)
Definition strip (s : pystr) : pystr := rstrip (lstrip s).

(** [s] is empty or made of whitespace only. *)
Definition blank (s : pystr) : bool := forallb isspace s.

(** [sub] occurs in [s] as a contiguous run. *)
Definition contains (s sub : pystr) : Prop :=
  exists pre post, s = pre ++ sub ++ post.

Definition has_prefix (s pre : pystr) : Prop :=
  exists rest, s = pre ++ rest.

End PyStr.
Import PyStr.

(** ** JSON values as Python objects *)

Inductive json : Type :=
| JNull
| JBool (b : bool)
| JInt (z : Z)
| JFloat (f : spec_float)
| JStr (s : pystr)
| JList (l : list json)
| JDict (d : list (pystr * json)).

(** [type(v).__name__] *)
Definition type_name (v : json) : pystr :=
  match v with
  | JNull => lit "NoneType"
  | JBool _ => lit "bool"
  | JInt _ => lit "int"
  | JFloat _ => lit "float"
  | JStr _ => lit "str"
  | JList _ => lit "list"
  | JDict _ => lit "dict"
  end.

(** [bool(v)]: what [not v] tests. *)
Definition truthy (v : json) : bool :=
  match v with
  | JNull => false
  | JBool b => b
  | JInt z => negb (z =? 0)
  | JFloat (S754_zero _) => false
  | JFloat _ => true
  | JStr s => match s with [] => false | _ => true end
  | JList l => match l with [] => false | _ => true end
  | JDict d => match d with [] => false | _ => true end
  end.

(** Lookup in a [dict]. *)
Fixpoint dict_lookup (d : list (pystr * json)) (k : pystr) : option json :=
  match d with
  | [] => None
  | (k', v) :: d' => if PyStr.eqb k' k then Some v else dict_lookup d' k
  end.

(** ** Exceptions *)

(** JSON-RPC error codes of [mcp.types]. *)
Definition INVALID_PARAMS : Z := -32602.
Definition INTERNAL_ERROR : Z := -32603.

Record ErrorData : Type := mkErrorData { code : Z; message : pystr }.

Record Response : Type := mkResponse {
  status_code : Z;
  text : pystr;                 (* response.text *)
  json_result : pystr + json;   (* response.json(): the decoded body, or
                                   the message of the decoding error *)
  status_error_message : pystr  (* the message raise_for_status() gives
                                   its HTTPStatusError *)
}.

(** The exceptions the pipeline distinguishes.  All three are subclasses
    of [Exception]; [PyExc cls msg] is any other exception, of class [cls]
    and with [str(e) = msg]. *)
Inductive exn : Type :=
| HTTPStatusError (response : Response)
| McpError (e : ErrorData)
| PyExc (cls : pystr) (msg : pystr).

(** [str(e)].  [McpError.__init__] passes [error.message] to
    [Exception.__init__]. *)
Definition str_exn (e : exn) : pystr :=
  match e with
  | HTTPStatusError r => status_error_message r
  | McpError d => message d
  | PyExc _ msg => msg
  end.

(** ** Effects: exceptions and the outbound request log *)

Record Request : Type := mkRequest {
  url : pystr;
  headers : list (pystr * pystr);
  json_body : json;
  timeout : Z                   (* seconds *)
}.

(** What [client.post] comes back with. *)
Inductive Outcome : Type :=
| TransportFailed (cls : pystr) (msg : pystr)
| Responded (r : Response).

(** The provider, seen from the client. *)
Definition Provider := Request -> Outcome.

(** A computation that reads the log of requests sent so far, extends it,
    and either raises or returns. *)
Definition M (A : Type) : Type := list Request -> (exn + A) * list Request.

Definition ret {A} (a : A) : M A := fun log => (inr a, log).

Definition raise {A} (e : exn) : M A := fun log => (inl e, log).

Definition bind {A B} (m : M A) (k : A -> M B) : M B :=
  fun log =>
    match m log with
    | (inl e, log') => (inl e, log')
    | (inr a, log') => k a log'
    end.

(** [try: m  except ...: h e] *)
Definition try_except {A} (m : M A) (h : exn -> M A) : M A :=
  fun log =>
    match m log with
    | (inl e, log') => h e log'
    | (inr a, log') => (inr a, log')
    end.

Declare Scope py_scope.
Delimit Scope py_scope with py.
Notation "x <- m ;; k" := (bind m (fun x => k))
  (at level 61, m at next level, right associativity) : py_scope.
Notation "m ;;; k" := (bind m (fun _ => k))
  (at level 61, right associativity) : py_scope.
Local Open Scope py_scope.

(** ** Python operations used by the source *)

Definition attribute_error (v : json) (attr : string) : exn :=
  PyExc (lit "AttributeError")
        (lit "'" ++ type_name v ++ lit "' object has no attribute '"
             ++ lit attr ++ lit "'").

Definition not_subscriptable (v : json) : exn :=
  PyExc (lit "TypeError")
        (lit "'" ++ type_name v ++ lit "' object is not subscriptable").

(** [obj.get(key, default)] *)
Definition py_get (obj : json) (key : pystr) (default : json) : M json :=
  match obj with
  | JDict d =>
      ret (match dict_lookup d key with Some v => v | None => default end)
  | _ => raise (attribute_error obj "get")
  end.

(** [obj[key]] for a [str] key *)
Definition py_getitem_key (obj : json) (key : pystr) : M json :=
  match obj with
  | JDict d =>
      match dict_lookup d key with
      | Some v => ret v
      | None => raise (PyExc (lit "KeyError") (lit "'" ++ key ++ lit "'"))
      end
  | JList _ =>
      raise (PyExc (lit "TypeError")
                   (lit "list indices must be integers or slices, not str"))
  | JStr _ =>
      raise (PyExc (lit "TypeError")
                   (lit "string indices must be integers, not 'str'"))
  | _ => raise (not_subscriptable obj)
  end.

(** [obj[0]] *)
Definition py_getitem_0 (obj : json) : M json :=
  match obj with
  | JList (x :: _) => ret x
  | JList [] => raise (PyExc (lit "IndexError") (lit "list index out of range"))
  | JStr (c :: _) => ret (JStr [c])
  | JStr [] => raise (PyExc (lit "IndexError") (lit "string index out of range"))
  | JDict _ => raise (PyExc (lit "KeyError") (lit "0"))
  | _ => raise (not_subscriptable obj)
  end.

(** [response.raise_for_status()] *)
Definition raise_for_status (response : Response) : M unit :=
  if (200 <=? status_code response) && (status_code response <=? 299)
  then ret tt
  else raise (HTTPStatusError response).

(** [response.json()] *)
Definition response_json (response : Response) : M json :=
  match json_result response with
  | inr v => ret v
  | inl msg => raise (PyExc (lit "JSONDecodeError") msg)
  end.

(** [await client.post(...)]: one request leaves, whatever comes back. *)
Definition client_post (provider : Provider) (req : Request) : M Response :=
  fun log =>
    match provider req with
    | Responded r => (inr r, log ++ [req])
    | TransportFailed cls msg => (inl (PyExc cls msg), log ++ [req])
    end.

(** ** The module *)

(** The environment variables read at import time, each asserted to be
    set. *)
Record Config : Type := mkConfig {
  TOKEN : pystr;
  MY_NUMBER : pystr;
  NUTRITIONIX_APP_ID : pystr;
  NUTRITIONIX_APP_KEY : pystr
}.

Section Server.

Variable cfg : Config.
Variable provider : Provider.

Definition about : M json :=
  ret (JDict
    [ (lit "name", JStr (lit "NutritiWisdom"));
      (lit "description",
       JStr (lit "A MCP server which gives you nutritional information of various food items")) ]).

Definition validate : M pystr := ret (MY_NUMBER cfg).

Definition nutrition_request (query : pystr) : Request :=
  {| url := lit "https://trackapi.nutritionix.com/v2/natural/nutrients";
     headers :=
       [ (lit "x-app-id", NUTRITIONIX_APP_ID cfg);
         (lit "x-app-key", NUTRITIONIX_APP_KEY cfg);
         (lit "Content-Type", lit "application/json") ];
     json_body := JDict [ (lit "query", JStr query) ];
     timeout := 10 |}.

Definition fetch_nutrition_data (query : pystr) : M json :=
  try_except
    (response <- client_post provider (nutrition_request query) ;;
     raise_for_status response ;;;
     data <- response_json response ;;
     foods <- py_get data (lit "foods") JNull ;;
     if negb (truthy foods) then
       raise (McpError {| code := INVALID_PARAMS;
                          message := lit "No nutrition data found for this query" |})
     else
       foods' <- py_getitem_key data (lit "foods") ;;
       py_getitem_0 foods')
    (fun e =>
       match e with
       | HTTPStatusError response =>
           let error_msg := lit "Nutritionix API error: " ++ text response in
           raise (McpError {| code := INTERNAL_ERROR; message := error_msg |})
       | _ =>
           raise (McpError {| code := INTERNAL_ERROR;
                              message := lit "Nutrition data fetch failed: "
                                           ++ str_exn e |})
       end).

(** The [return {...}] of [analyze_nutrition]: the report built from
    the provider's record, key by key in source order. *)
Definition shape_report (nutrition_data : json) : M json :=
  food <- py_get nutrition_data (lit "food_name") (JStr (lit "Unknown")) ;;
  quantity <- py_get nutrition_data (lit "serving_qty") (JInt 1) ;;
  unit_ <- py_get nutrition_data (lit "serving_unit") (JStr (lit "serving")) ;;
  weight_grams <- py_get nutrition_data (lit "serving_weight_grams") (JInt 0) ;;
  calories <- py_get nutrition_data (lit "nf_calories") (JInt 0) ;;
  protein_g <- py_get nutrition_data (lit "nf_protein") (JInt 0) ;;
  fat_g <- py_get nutrition_data (lit "nf_total_fat") (JInt 0) ;;
  carbs_g <- py_get nutrition_data (lit "nf_total_carbohydrate") (JInt 0) ;;
  fiber_g <- py_get nutrition_data (lit "nf_dietary_fiber") (JInt 0) ;;
  sugars_g <- py_get nutrition_data (lit "nf_sugars") (JInt 0) ;;
  sodium_mg <- py_get nutrition_data (lit "nf_sodium") (JInt 0) ;;
  cholesterol_mg <- py_get nutrition_data (lit "nf_cholesterol") (JInt 0) ;;
  potassium_mg <- py_get nutrition_data (lit "nf_potassium") (JInt 0) ;;
  ret (JDict
    [ (lit "food", food);
      (lit "serving", JDict
         [ (lit "quantity", quantity);
           (lit "unit", unit_);
           (lit "weight_grams", weight_grams) ]);
      (lit "calories", calories);
      (lit "macronutrients", JDict
         [ (lit "protein_g", protein_g);
           (lit "fat_g", fat_g);
           (lit "carbs_g", carbs_g);
           (lit "fiber_g", fiber_g);
           (lit "sugars_g", sugars_g) ]);
      (lit "micronutrients", JDict
         [ (lit "sodium_mg", sodium_mg);
           (lit "cholesterol_mg", cholesterol_mg);
           (lit "potassium_mg", potassium_mg) ]);
      (lit "source", JStr (lit "Nutritionix API")) ]).

Definition analyze_nutrition (food_query : pystr) : M json :=
  if negb (truthy (JStr (strip food_query))) then
    raise (McpError {| code := INVALID_PARAMS;
                       message := lit "Food query cannot be empty" |})
  else
    try_except
      (nutrition_data <- fetch_nutrition_data food_query ;;
       shape_report nutrition_data)
      (fun e =>
         raise (McpError {| code := INTERNAL_ERROR;
                            message := lit "Failed to analyze nutrition: "
                                         ++ str_exn e |})).

End Server.

(** ** The report schema of the specification *)

(** The value found in [v] by following the keys of [path]. *)
Fixpoint lookup_path (path : list pystr) (v : json) : option json :=
  match path with
  | [] => Some v
  | k :: path' =>
      match v with
      | JDict d =>
          match dict_lookup d k with
          | Some v' => lookup_path path' v'
          | None => None
          end
      | _ => None
      end
  end.

(** The field mapping table of the specification: report path, provider
    field, default. *)
Definition report_fields : list (list pystr * pystr * json) :=
  [ ([lit "food"], lit "food_name", JStr (lit "Unknown"));
    ([lit "serving"; lit "quantity"], lit "serving_qty", JInt 1);
    ([lit "serving"; lit "unit"], lit "serving_unit", JStr (lit "serving"));
    ([lit "serving"; lit "weight_grams"], lit "serving_weight_grams", JInt 0);
    ([lit "calories"], lit "nf_calories", JInt 0);
    ([lit "macronutrients"; lit "protein_g"], lit "nf_protein", JInt 0);
    ([lit "macronutrients"; lit "fat_g"], lit "nf_total_fat", JInt 0);
    ([lit "macronutrients"; lit "carbs_g"], lit "nf_total_carbohydrate", JInt 0);
    ([lit "macronutrients"; lit "fiber_g"], lit "nf_dietary_fiber", JInt 0);
    ([lit "macronutrients"; lit "sugars_g"], lit "nf_sugars", JInt 0);
    ([lit "micronutrients"; lit "sodium_mg"], lit "nf_sodium", JInt 0);
    ([lit "micronutrients"; lit "cholesterol_mg"], lit "nf_cholesterol", JInt 0);
    ([lit "micronutrients"; lit "potassium_mg"], lit "nf_potassium", JInt 0) ].

(** [record.get(key, dflt)] on a mapping, as a value. *)
Definition get_or (record : list (pystr * json)) (key : pystr) (dflt : json) : json :=
  match dict_lookup record key with
  | Some v => v
  | None => dflt
  end.

(** A numeric value that is at least zero. *)
Definition numeric_nonneg (v : json) : bool :=
  match v with
  | JInt z => 0 <=? z
  | JFloat f => SFleb (S754_zero false) f
  | _ => false
  end.

(** The status codes [raise_for_status] lets through. *)
Definition is_success (r : Response) : Prop := 200 <= status_code r <= 299.

(** ** Sample configurations, responses and providers *)

Module Fixtures.

Definition cfg0 : Config :=
  {| TOKEN := lit "secret-token";
     MY_NUMBER := lit "919876543210";
     NUTRITIONIX_APP_ID := lit "app-id";
     NUTRITIONIX_APP_KEY := lit "app-key" |}.

(** The double quote, for bodies written out as text. *)
Definition dq : pystr := [34%N].

(** A provider that answers every request with [r]. *)
Definition responds (r : Response) : Provider := fun _ => Responded r.

(** A provider that cannot be reached. *)
Definition unreachable : Provider :=
  fun _ => TransportFailed (lit "ConnectError") (lit "All connection attempts failed").

(** A 200 response with body [body], which decodes to [data]. *)
Definition ok_response (body : pystr) (data : json) : Response :=
  {| status_code := 200;
     text := body;
     json_result := inr data;
     status_error_message := [] |}.

(** [{"foods": []}] *)
Definition empty_foods : Response :=
  ok_response (lit "{" ++ dq ++ lit "foods" ++ dq ++ lit ": []}")
              (JDict [ (lit "foods", JList []) ]).

(** [{"food_name": "banana", "nf_calories": 105}] *)
Definition banana_record : list (pystr * json) :=
  [ (lit "food_name", JStr (lit "banana")); (lit "nf_calories", JInt 105) ].

(** [{"nf_calories": -5}] *)
Definition negative_record : list (pystr * json) :=
  [ (lit "nf_calories", JInt (-5)) ].

(** [{"food_name": null}] *)
Definition null_name_record : list (pystr * json) :=
  [ (lit "food_name", JNull) ].

(** A 200 response whose body decodes to [{"foods": [record]}]; the
    body text plays no part on this path. *)
Definition one_food (record : list (pystr * json)) : Response :=
  ok_response [] (JDict [ (lit "foods", JList [JDict record]) ]).

(** A 400 response with the plain-text body [bad request]. *)
Definition bad_request : Response :=
  {| status_code := 400;
     text := lit "bad request";
     json_result := inl (lit "Expecting value: line 1 column 1 (char 0)");
     status_error_message := lit "Client error '400 Bad Request'" |}.

Definition banana_query : pystr := lit "1 banana".

End Fixtures.
Import Fixtures.

(** ** Start-up and authentication *)

(** [os.environ.get], after [load_dotenv()]. *)
Definition Environ := pystr -> option pystr.

Definition assertion_error (msg : string) : exn :=
  PyExc (lit "AssertionError") (lit msg).

(** The module's top level: the four variables are read, then asserted
    to be set, in this order (the [assert] statements are live: the
    interpreter does not run with [-O]). *)
Definition read_config (environ : Environ) : exn + Config :=
  let token := environ (lit "AUTH_TOKEN") in
  let my_number := environ (lit "MY_NUMBER") in
  let app_id := environ (lit "NUTRITIONIX_APP_ID") in
  let app_key := environ (lit "NUTRITIONIX_APP_KEY") in
  match token with
  | None => inl (assertion_error "Please set AUTH_TOKEN in your .env file")
  | Some t =>
  match my_number with
  | None => inl (assertion_error "Please set MY_NUMBER in your .env file")
  | Some n =>
  match app_id with
  | None => inl (assertion_error "Please set NUTRITIONIX_APP_ID in your .env file")
  | Some i =>
  match app_key with
  | None => inl (assertion_error "Please set NUTRITIONIX_APP_KEY in your .env file")
  | Some k =>
      inr {| TOKEN := t; MY_NUMBER := n;
             NUTRITIONIX_APP_ID := i; NUTRITIONIX_APP_KEY := k |}
  end end end end.

(** The variables the module needs, in the order it asserts them. *)
Definition required_variables : list pystr :=
  [ lit "AUTH_TOKEN"; lit "MY_NUMBER";
    lit "NUTRITIONIX_APP_ID"; lit "NUTRITIONIX_APP_KEY" ].

Record AccessToken : Type := mkAccessToken {
  token : pystr;
  client_id : pystr;
  scopes : list pystr;
  expires_at : option Z
}.

(** An instance of [SimpleBearerAuthProvider]: the token [__init__]
    stores.  The RSA key pair it hands to the base class is not used by
    [load_access_token]. *)
Record SimpleBearerAuthProvider : Type := mkProvider { self_token : pystr }.

Definition load_access_token (self : SimpleBearerAuthProvider) (tok : pystr)
  : option AccessToken :=
  if PyStr.eqb tok (self_token self) then
    Some {| token := tok;
            client_id := lit "puch-client";
            scopes := [lit "*"];
            expires_at := None |}
  else None.

(** [auth=SimpleBearerAuthProvider(TOKEN)] *)
Definition mcp_auth (cfg : Config) : SimpleBearerAuthProvider :=
  {| self_token := TOKEN cfg |}.

(** ** More sample data *)

Module Samples.

(** An environment holding exactly the given variables. *)
Fixpoint environ_of (vars : list (pystr * pystr)) : Environ :=
  fun name =>
    match vars with
    | [] => None
    | (n, v) :: vars' => if PyStr.eqb n name then Some v else environ_of vars' name
    end.

Definition full_environ : Environ :=
  environ_of [ (lit "AUTH_TOKEN", lit "secret-token");
               (lit "MY_NUMBER", lit "919876543210");
               (lit "NUTRITIONIX_APP_ID", lit "app-id");
               (lit "NUTRITIONIX_APP_KEY", lit "app-key") ].

(** [MY_NUMBER] and [NUTRITIONIX_APP_KEY] are both unset. *)
Definition environ_without_number : Environ :=
  environ_of [ (lit "AUTH_TOKEN", lit "secret-token");
               (lit "NUTRITIONIX_APP_ID", lit "app-id") ].

(** A 200 response whose body is not JSON. *)
Definition html_page : Response :=
  {| status_code := 200;
     text := lit "<html></html>";
     json_result := inl (lit "Expecting value: line 1 column 1 (char 0)");
     status_error_message := [] |}.

(** A 200 response whose body decodes to the list [[]]. *)
Definition list_body : Response :=
  {| status_code := 200;
     text := lit "[]";
     json_result := inr (JList []);
     status_error_message := [] |}.

(** A 200 response decoding to [{"foods": "abc"}]. *)
Definition string_foods : Response :=
  {| status_code := 200;
     text := [];
     json_result := inr (JDict [ (lit "foods", JStr (lit "abc")) ]);
     status_error_message := [] |}.

(** A 200 response decoding to [{"foods": 0}]. *)
Definition zero_foods : Response :=
  {| status_code := 200;
     text := [];
     json_result := inr (JDict [ (lit "foods", JInt 0) ]);
     status_error_message := [] |}.

(** A 200 response decoding to [{"foods": [5]}]. *)
Definition number_food : Response :=
  {| status_code := 200;
     text := [];
     json_result := inr (JDict [ (lit "foods", JList [JInt 5]) ]);
     status_error_message := [] |}.

(** The banana record with a field the report has no place for. *)
Definition banana_with_photo : list (pystr * json) :=
  [ (lit "photo", JStr (lit "https://example.org/banana.png"));
    (lit "food_name", JStr (lit "banana"));
    (lit "nf_calories", JInt 105) ].

Definition padded_query : pystr := lit "  1 banana ".

End Samples.
Import Samples.

(** ** Whitespace stripping *)

Lemma lstrip_nil_iff (s : pystr) : lstrip s = [] <-> blank s = true.
Proof.
  unfold blank. induction s as [|c s IH]; simpl.
  - tauto.
  - destruct (isspace c); simpl.
    + exact IH.
    + split; discriminate.
Qed.

Lemma blank_lstrip (s : pystr) : blank (lstrip s) = blank s.
Proof.
  unfold blank. induction s as [|c s IH]; simpl; [reflexivity|].
  destruct (isspace c) eqn:E; simpl.
  - exact IH.
  - now rewrite E.
Qed.

Lemma blank_rev (s : pystr) : blank (rev s) = blank s.
Proof.
  unfold blank. induction s as [|c s IH]; simpl; [reflexivity|].
  rewrite forallb_app, IH. simpl. rewrite andb_true_r. apply andb_comm.
Qed.

Lemma rev_nil_iff {A} (l : list A) : rev l = [] <-> l = [].
Proof.
  split; intros H.
  - rewrite <- (rev_involutive l), H. reflexivity.
  - now subst.
Qed.

Lemma strip_nil_iff (s : pystr) : strip s = [] <-> blank s = true.
Proof.
  unfold strip, rstrip.
  rewrite <- (blank_lstrip s), <- (blank_rev (lstrip s)).
  split; intros H.
  - now apply lstrip_nil_iff, rev_nil_iff.
  - now apply rev_nil_iff, lstrip_nil_iff.
Qed.

(** The test [not food_query.strip()] is the test for a blank query. *)
Lemma not_strip_blank (s : pystr) : negb (truthy (JStr (strip s))) = blank s.
Proof.
  destruct (blank s) eqn:E.
  - apply strip_nil_iff in E. now rewrite E.
  - simpl. destruct (strip s) eqn:S; [|reflexivity].
    apply strip_nil_iff in S. congruence.
Qed.

(** ** Running the pipeline *)

(** Shaping a mapping: no request, no exception, and the report spelled
    out. *)
Lemma shape_report_dict (d : list (pystr * json)) (log : list Request) :
  shape_report (JDict d) log =
  (inr (JDict
      [ (lit "food", get_or d (lit "food_name") (JStr (lit "Unknown")));
        (lit "serving", JDict
           [ (lit "quantity", get_or d (lit "serving_qty") (JInt 1));
             (lit "unit", get_or d (lit "serving_unit") (JStr (lit "serving")));
             (lit "weight_grams", get_or d (lit "serving_weight_grams") (JInt 0)) ]);
        (lit "calories", get_or d (lit "nf_calories") (JInt 0));
        (lit "macronutrients", JDict
           [ (lit "protein_g", get_or d (lit "nf_protein") (JInt 0));
             (lit "fat_g", get_or d (lit "nf_total_fat") (JInt 0));
             (lit "carbs_g", get_or d (lit "nf_total_carbohydrate") (JInt 0));
             (lit "fiber_g", get_or d (lit "nf_dietary_fiber") (JInt 0));
             (lit "sugars_g", get_or d (lit "nf_sugars") (JInt 0)) ]);
        (lit "micronutrients", JDict
           [ (lit "sodium_mg", get_or d (lit "nf_sodium") (JInt 0));
             (lit "cholesterol_mg", get_or d (lit "nf_cholesterol") (JInt 0));
             (lit "potassium_mg", get_or d (lit "nf_potassium") (JInt 0)) ]);
        (lit "source", JStr (lit "Nutritionix API")) ]), log).
Proof. reflexivity. Qed.

(** Every row of the table is answered by the shaped report. *)
Lemma shape_report_fields (d : list (pystr * json)) (log : list Request) :
  exists rep,
    shape_report (JDict d) log = (inr rep, log) /\
    Forall (fun '(path, key, dflt) =>
              lookup_path path rep = Some (get_or d key dflt)) report_fields /\
    lookup_path [lit "source"] rep = Some (JStr (lit "Nutritionix API")).
Proof.
  eexists. split; [apply shape_report_dict|].
  split; [|reflexivity].
  unfold report_fields. repeat constructor.
Qed.

Section Runs.

Variable cfg : Config.
Variable provider : Provider.

Lemma is_success_test (r : Response) :
  is_success r ->
  (200 <=? status_code r) && (status_code r <=? 299) = true.
Proof. unfold is_success. intros H. apply andb_true_iff. lia. Qed.

Lemma is_failure_test (r : Response) :
  400 <= status_code r <= 599 ->
  (200 <=? status_code r) && (status_code r <=? 299) = false.
Proof. intros H. apply andb_false_iff. lia. Qed.

(** The forwarder on a response that passes [raise_for_status] and
    decodes to a mapping: everything hangs on [data.get("foods")]. *)
Lemma fetch_on_mapping (query : pystr) (log : list Request)
      (r : Response) (data : list (pystr * json)) :
  provider (nutrition_request cfg query) = Responded r ->
  is_success r ->
  json_result r = inr (JDict data) ->
  fetch_nutrition_data cfg provider query log =
  try_except
    (if negb (truthy (get_or data (lit "foods") JNull)) then
       raise (McpError {| code := INVALID_PARAMS;
                          message := lit "No nutrition data found for this query" |})
     else
       foods' <- py_getitem_key (JDict data) (lit "foods") ;;
       py_getitem_0 foods')
    (fun e =>
       match e with
       | HTTPStatusError response =>
           raise (McpError {| code := INTERNAL_ERROR;
                              message := lit "Nutritionix API error: " ++ text response |})
       | _ =>
           raise (McpError {| code := INTERNAL_ERROR;
                              message := lit "Nutrition data fetch failed: "
                                           ++ str_exn e |})
       end)
    (log ++ [nutrition_request cfg query]).
Proof.
  intros Hp Hs Hj.
  unfold fetch_nutrition_data, try_except, bind, client_post.
  rewrite Hp. unfold raise_for_status.
  rewrite (is_success_test r Hs). unfold ret at 1, response_json.
  rewrite Hj. reflexivity.
Qed.

Lemma fetch_first_food (query : pystr) (log : list Request)
      (r : Response) (data : list (pystr * json)) (first : json) (rest : list json) :
  provider (nutrition_request cfg query) = Responded r ->
  is_success r ->
  json_result r = inr (JDict data) ->
  dict_lookup data (lit "foods") = Some (JList (first :: rest)) ->
  fetch_nutrition_data cfg provider query log =
  (inr first, log ++ [nutrition_request cfg query]).
Proof.
  intros Hp Hs Hj Hf.
  rewrite (fetch_on_mapping query log r data Hp Hs Hj).
  unfold get_or, try_except, bind, py_getitem_key.
  rewrite Hf. reflexivity.
Qed.

Lemma fetch_no_match (query : pystr) (log : list Request)
      (r : Response) (data : list (pystr * json)) :
  provider (nutrition_request cfg query) = Responded r ->
  is_success r ->
  json_result r = inr (JDict data) ->
  dict_lookup data (lit "foods") = None \/
  dict_lookup data (lit "foods") = Some (JList []) ->
  fetch_nutrition_data cfg provider query log =
  (inl (McpError
          {| code := INTERNAL_ERROR;
             message := lit "Nutrition data fetch failed: "
                          ++ lit "No nutrition data found for this query" |}),
   log ++ [nutrition_request cfg query]).
Proof.
  intros Hp Hs Hj Hf.
  rewrite (fetch_on_mapping query log r data Hp Hs Hj).
  unfold get_or, try_except.
  destruct Hf as [Hf|Hf]; rewrite Hf; reflexivity.
Qed.

Lemma fetch_http_error (query : pystr) (log : list Request) (r : Response) :
  provider (nutrition_request cfg query) = Responded r ->
  400 <= status_code r <= 599 ->
  fetch_nutrition_data cfg provider query log =
  (inl (McpError
          {| code := INTERNAL_ERROR;
             message := lit "Nutritionix API error: " ++ text r |}),
   log ++ [nutrition_request cfg query]).
Proof.
  intros Hp Hs.
  unfold fetch_nutrition_data, try_except, bind, client_post.
  rewrite Hp. unfold raise_for_status.
  rewrite (is_failure_test r Hs). reflexivity.
Qed.

(** Whatever goes wrong in the forwarder leaves it as an internal
    [McpError]. *)
Lemma fetch_raises_internal (query : pystr) (log log' : list Request) (e : exn) :
  fetch_nutrition_data cfg provider query log = (inl e, log') ->
  exists m, e = McpError {| code := INTERNAL_ERROR; message := m |}.
Proof.
  unfold fetch_nutrition_data, try_except.
  match goal with |- context [bind ?m ?k log] => destruct (bind m k log) as [[e0|v] l0] end.
  - destruct e0; unfold raise; intros H; inversion H; eauto.
  - discriminate.
Qed.


(** Past the blank check, [analyze_nutrition] is the guarded
    composition of forwarder and shaper. *)
Lemma analyze_nonblank (food_query : pystr) :
  blank food_query = false ->
  analyze_nutrition cfg provider food_query =
  try_except
    (nutrition_data <- fetch_nutrition_data cfg provider food_query ;;
     shape_report nutrition_data)
    (fun e =>
       raise (McpError {| code := INTERNAL_ERROR;
                          message := lit "Failed to analyze nutrition: "
                                       ++ str_exn e |})).
Proof.
  intros Hb. unfold analyze_nutrition.
  rewrite not_strip_blank, Hb. reflexivity.
Qed.

Lemma analyze_on_record (food_query : pystr) (log : list Request)
      (r : Response) (data : list (pystr * json))
      (record : list (pystr * json)) (rest : list json) :
  blank food_query = false ->
  provider (nutrition_request cfg food_query) = Responded r ->
  is_success r ->
  json_result r = inr (JDict data) ->
  dict_lookup data (lit "foods") = Some (JList (JDict record :: rest)) ->
  analyze_nutrition cfg provider food_query log =
  (fst (shape_report (JDict record) log),
   log ++ [nutrition_request cfg food_query]).
Proof.
  intros Hb Hp Hs Hj Hf.
  rewrite (analyze_nonblank food_query Hb).
  unfold try_except, bind.
  rewrite (fetch_first_food food_query log r data _ _ Hp Hs Hj Hf).
  rewrite !shape_report_dict. reflexivity.
Qed.

End Runs.

(** ** The properties of the specification *)

(** C1.  On the response [{"foods": []}] with status 200 the forwarder
    does not fail with an invalid-input error carrying "No nutrition data
    found for this query": the error it raises on line 92 is caught by its
    own [except Exception] and leaves as an internal error whose message
    is "Nutrition data fetch failed: No nutrition data found for this
    query". *)
Theorem fetch_no_match_leaves_as_internal :
  fetch_nutrition_data cfg0 (responds empty_foods) banana_query [] =
  (inl (McpError
          {| code := INTERNAL_ERROR;
             message := lit "Nutrition data fetch failed: No nutrition data found for this query" |}),
   [nutrition_request cfg0 banana_query])
  /\ INTERNAL_ERROR <> INVALID_PARAMS
  /\ lit "Nutrition data fetch failed: No nutrition data found for this query"
     <> lit "No nutrition data found for this query".
Proof.
  split; [reflexivity|]. split; discriminate.
Qed.

(** C2.  For every food query that is empty or made of whitespace only,
    [analyze_nutrition] fails with the invalid-input error "Food query
    cannot be empty" and sends no request to the provider: the request log
    is left as it was. *)
Theorem analyze_nutrition_rejects_blank
        (cfg : Config) (provider : Provider)
        (food_query : pystr) (log : list Request) :
  blank food_query = true ->
  analyze_nutrition cfg provider food_query log =
  (inl (McpError {| code := INVALID_PARAMS;
                    message := lit "Food query cannot be empty" |}),
   log).
Proof.
  intros Hb. unfold analyze_nutrition.
  rewrite not_strip_blank, Hb. reflexivity.
Qed.

Lemma analyze_nutrition_rejects_blank_witness :
  (blank [] = true /\
   analyze_nutrition cfg0 unreachable [] [] =
   (inl (McpError {| code := INVALID_PARAMS;
                     message := lit "Food query cannot be empty" |}), []))
  /\
  (blank (lit "   ") = true /\
   analyze_nutrition cfg0 unreachable (lit "   ") [] =
   (inl (McpError {| code := INVALID_PARAMS;
                     message := lit "Food query cannot be empty" |}), [])).
Proof.
  split; (split; [reflexivity|]).
  - apply (analyze_nutrition_rejects_blank cfg0 unreachable [] []). reflexivity.
  - apply (analyze_nutrition_rejects_blank cfg0 unreachable (lit "   ") []).
    reflexivity.
Defined.

(** C3.  Shaping is total and pure on mappings: for every mapping, the
    empty one included, it raises nothing, sends nothing, and returns a
    report in which each of the 13 leaf fields of the table is present,
    holding the documented default whenever the provider field is absent
    from the mapping, and in which [source] is "Nutritionix API". *)
Theorem shape_report_total_with_defaults
        (record : list (pystr * json)) (log : list Request) :
  exists rep,
    shape_report (JDict record) log = (inr rep, log) /\
    List.length report_fields = 13%nat /\
    Forall (fun '(path, key, dflt) =>
              exists v, lookup_path path rep = Some v /\
                        (dict_lookup record key = None -> v = dflt))
           report_fields /\
    lookup_path [lit "source"] rep = Some (JStr (lit "Nutritionix API")).
Proof.
  destruct (shape_report_fields record log) as (rep & Hrun & Hfields & Hsrc).
  exists rep. repeat split; try assumption.
  eapply Forall_impl; [|exact Hfields].
  intros [[path key] dflt] H. eexists. split; [exact H|].
  intros Hnone. unfold get_or. now rewrite Hnone.
Qed.

(** C4.  Shaping the record [{"food_name": "banana", "nf_calories": 105}]
    gives a report with food "banana", calories 105, serving unit
    "serving", protein 0 and source "Nutritionix API". *)
Theorem shape_report_banana (log : list Request) :
  exists rep,
    shape_report (JDict banana_record) log = (inr rep, log) /\
    lookup_path [lit "food"] rep = Some (JStr (lit "banana")) /\
    lookup_path [lit "calories"] rep = Some (JInt 105) /\
    lookup_path [lit "serving"; lit "unit"] rep = Some (JStr (lit "serving")) /\
    lookup_path [lit "macronutrients"; lit "protein_g"] rep = Some (JInt 0) /\
    lookup_path [lit "source"] rep = Some (JStr (lit "Nutritionix API")).
Proof.
  eexists. split; [apply shape_report_dict|].
  repeat split.
Qed.

(** C5.  When the provider's response passes [raise_for_status], decodes
    to a JSON object and holds a non-empty list under "foods", the
    forwarder returns the first element of that list as it is, after the
    one request it sends. *)
Theorem fetch_returns_first_food
        (cfg : Config) (provider : Provider) (query : pystr) (log : list Request)
        (r : Response) (data : list (pystr * json))
        (first : json) (rest : list json) :
  provider (nutrition_request cfg query) = Responded r ->
  is_success r ->
  json_result r = inr (JDict data) ->
  dict_lookup data (lit "foods") = Some (JList (first :: rest)) ->
  fetch_nutrition_data cfg provider query log =
  (inr first, log ++ [nutrition_request cfg query]).
Proof. apply fetch_first_food. Qed.

Lemma fetch_returns_first_food_witness :
  fetch_nutrition_data cfg0
    (responds (ok_response []
       (JDict [ (lit "foods", JList [JDict banana_record; JDict negative_record]) ])))
    banana_query [] =
  (inr (JDict banana_record), [] ++ [nutrition_request cfg0 banana_query]).
Proof.
  apply (fetch_returns_first_food cfg0 _ banana_query []
           (ok_response []
              (JDict [ (lit "foods",
                        JList [JDict banana_record; JDict negative_record]) ]))
           [ (lit "foods", JList [JDict banana_record; JDict negative_record]) ]
           (JDict banana_record) [JDict negative_record]).
  - reflexivity.
  - unfold is_success. simpl. lia.
  - reflexivity.
  - reflexivity.
Defined.

(** C6.  When the provider answers with a 4xx or 5xx status, the
    forwarder fails with an internal error whose message is "Nutritionix
    API error: " followed by the raw body text, so the message contains
    that text. *)
Theorem fetch_http_failure_carries_body
        (cfg : Config) (provider : Provider) (query : pystr) (log : list Request)
        (r : Response) :
  provider (nutrition_request cfg query) = Responded r ->
  400 <= status_code r <= 599 ->
  exists e,
    fetch_nutrition_data cfg provider query log =
    (inl (McpError e), log ++ [nutrition_request cfg query]) /\
    code e = INTERNAL_ERROR /\
    message e = lit "Nutritionix API error: " ++ text r /\
    contains (message e) (text r).
Proof.
  intros Hp Hs. eexists. split; [apply (fetch_http_error cfg provider query log r Hp Hs)|].
  simpl. repeat split.
  exists (lit "Nutritionix API error: "), []. now rewrite app_nil_r.
Qed.

Lemma fetch_http_failure_carries_body_witness :
  exists e,
    fetch_nutrition_data cfg0 (responds bad_request) banana_query [] =
    (inl (McpError e), [] ++ [nutrition_request cfg0 banana_query]) /\
    code e = INTERNAL_ERROR /\
    message e = lit "Nutritionix API error: " ++ text bad_request /\
    contains (message e) (text bad_request).
Proof.
  apply (fetch_http_failure_carries_body cfg0 (responds bad_request)
           banana_query [] bad_request).
  - reflexivity.
  - simpl. lia.
Defined.

(** C7, as stated, fails: with the provider record [{"nf_calories": -5}]
    the report's [calories] is -5, a supplied numeric value below zero. *)
Lemma analyze_nutrition_negative_calories :
  blank banana_query = false /\
  dict_lookup negative_record (lit "nf_calories") = Some (JInt (-5)) /\
  exists rep,
    analyze_nutrition cfg0 (responds (one_food negative_record)) banana_query [] =
    (inr rep, [nutrition_request cfg0 banana_query]) /\
    lookup_path [lit "calories"] rep = Some (JInt (-5)) /\
    numeric_nonneg (JInt (-5)) = false.
Proof.
  split; [reflexivity|]. split; [reflexivity|].
  eexists. split; [reflexivity|]. split; reflexivity.
Qed.

(** C7, amended.  For every non-blank food query, if the provider returns
    at least one food record, [analyze_nutrition] returns a report with
    all 13 leaf fields present, and every leaf field for which the
    provider supplied a value carries that value unchanged; so such a
    field is at least zero exactly when the provider's value is. *)
Theorem analyze_nutrition_passes_values_through
        (cfg : Config) (provider : Provider) (food_query : pystr)
        (log : list Request) (r : Response) (data : list (pystr * json))
        (record : list (pystr * json)) (rest : list json) :
  blank food_query = false ->
  provider (nutrition_request cfg food_query) = Responded r ->
  is_success r ->
  json_result r = inr (JDict data) ->
  dict_lookup data (lit "foods") = Some (JList (JDict record :: rest)) ->
  exists rep,
    analyze_nutrition cfg provider food_query log =
    (inr rep, log ++ [nutrition_request cfg food_query]) /\
    List.length report_fields = 13%nat /\
    Forall (fun '(path, key, dflt) =>
              exists v, lookup_path path rep = Some v /\
                forall pv, dict_lookup record key = Some pv ->
                           v = pv /\ numeric_nonneg v = numeric_nonneg pv)
           report_fields.
Proof.
  intros Hb Hp Hs Hj Hf.
  destruct (shape_report_fields record log) as (rep & Hrun & Hfields & _).
  exists rep. split.
  - rewrite (analyze_on_record cfg provider food_query log r data record rest
               Hb Hp Hs Hj Hf).
    now rewrite Hrun.
  - split; [reflexivity|].
    eapply Forall_impl; [|exact Hfields].
    intros [[path key] dflt] H. eexists. split; [exact H|].
    intros pv Hpv. unfold get_or. rewrite Hpv. now split.
Qed.

Lemma analyze_nutrition_passes_values_through_witness :
  exists rep,
    analyze_nutrition cfg0 (responds (one_food banana_record)) banana_query [] =
    (inr rep, [] ++ [nutrition_request cfg0 banana_query]) /\
    List.length report_fields = 13%nat /\
    Forall (fun '(path, key, dflt) =>
              exists v, lookup_path path rep = Some v /\
                forall pv, dict_lookup banana_record key = Some pv ->
                           v = pv /\ numeric_nonneg v = numeric_nonneg pv)
           report_fields.
Proof.
  apply (analyze_nutrition_passes_values_through cfg0
           (responds (one_food banana_record)) banana_query []
           (one_food banana_record)
           [ (lit "foods", JList [JDict banana_record]) ]
           banana_record []).
  - reflexivity.
  - reflexivity.
  - unfold is_success. simpl. lia.
  - reflexivity.
  - reflexivity.
Defined.

(** C8.  [about] takes no argument, never fails and returns the same
    object with the two fields [name] and [description] on every call;
    [validate] never fails and returns the configured [MY_NUMBER]
    unchanged on every call.  Neither sends a request. *)
Theorem about_validate_constant (cfg : Config) (log : list Request) :
  about log =
  (inr (JDict
     [ (lit "name", JStr (lit "NutritiWisdom"));
       (lit "description",
        JStr (lit "A MCP server which gives you nutritional information of various food items")) ]),
   log)
  /\ validate cfg log = (inr (MY_NUMBER cfg), log).
Proof. split; reflexivity. Qed.

(** C9.  The defaults apply only to absent keys: when the record maps a
    provider field to JSON null, the report carries null in the
    corresponding field; [{"food_name": null}] gives [food = null], not
    "Unknown". *)
Theorem shape_report_keeps_null
        (record : list (pystr * json)) (log : list Request)
        (path : list pystr) (key : pystr) (dflt : json) :
  In (path, key, dflt) report_fields ->
  dict_lookup record key = Some JNull ->
  (exists rep,
     shape_report (JDict record) log = (inr rep, log) /\
     lookup_path path rep = Some JNull)
  /\ JNull <> dflt.
Proof.
  intros Hin Hnull.
  destruct (shape_report_fields record log) as (rep & Hrun & Hfields & _).
  split.
  - exists rep. split; [exact Hrun|].
    rewrite Forall_forall in Hfields. specialize (Hfields _ Hin). simpl in Hfields.
    rewrite Hfields. unfold get_or. now rewrite Hnull.
  - unfold report_fields in Hin. simpl in Hin.
    repeat (destruct Hin as [Hin|Hin]; [inversion Hin; discriminate|]).
    contradiction.
Qed.

Lemma shape_report_keeps_null_witness :
  (exists rep,
     shape_report (JDict null_name_record) [] = (inr rep, []) /\
     lookup_path [lit "food"] rep = Some JNull)
  /\ JNull <> JStr (lit "Unknown").
Proof.
  apply (shape_report_keeps_null null_name_record []
           [lit "food"] (lit "food_name") (JStr (lit "Unknown"))).
  - left. reflexivity.
  - reflexivity.
Defined.

(** C10.  Past the blank check, every failure of [analyze_nutrition] is
    an internal error whose message starts with "Failed to analyze
    nutrition: "; this holds for the no-match case too, where "foods" is
    missing or empty: the error raised as invalid-input is wrapped by the
    forwarder's handler and again by the tool's. *)
Theorem analyze_nutrition_failures_are_internal
        (cfg : Config) (provider : Provider) (food_query : pystr)
        (log : list Request) :
  blank food_query = false ->
  (forall e log',
     analyze_nutrition cfg provider food_query log = (inl e, log') ->
     exists d, e = McpError d /\ code d = INTERNAL_ERROR /\
               has_prefix (message d) (lit "Failed to analyze nutrition: "))
  /\
  (forall r data,
     provider (nutrition_request cfg food_query) = Responded r ->
     is_success r ->
     json_result r = inr (JDict data) ->
     dict_lookup data (lit "foods") = None \/
     dict_lookup data (lit "foods") = Some (JList []) ->
     analyze_nutrition cfg provider food_query log =
     (inl (McpError
             {| code := INTERNAL_ERROR;
                message := lit "Failed to analyze nutrition: "
                             ++ lit "Nutrition data fetch failed: "
                             ++ lit "No nutrition data found for this query" |}),
      log ++ [nutrition_request cfg food_query])).
Proof.
  intros Hb. rewrite (analyze_nonblank cfg provider food_query Hb). split.
  - intros e log'. unfold try_except.
    match goal with
    | |- context [bind ?m ?k log] => destruct (bind m k log) as [[e0|v] l0]
    end.
    + unfold raise. intros H. inversion H; subst.
      eexists. split; [reflexivity|]. split; [reflexivity|].
      exists (str_exn e0). reflexivity.
    + discriminate.
  - intros r data Hp Hs Hj Hf. unfold try_except, bind.
    rewrite (fetch_no_match cfg provider food_query log r data Hp Hs Hj Hf).
    reflexivity.
Qed.

Lemma analyze_nutrition_failures_are_internal_witness :
  analyze_nutrition cfg0 (responds empty_foods) banana_query [] =
  (inl (McpError
          {| code := INTERNAL_ERROR;
             message := lit "Failed to analyze nutrition: "
                          ++ lit "Nutrition data fetch failed: "
                          ++ lit "No nutrition data found for this query" |}),
   [] ++ [nutrition_request cfg0 banana_query]).
Proof.
  refine (proj2 (analyze_nutrition_failures_are_internal cfg0
                   (responds empty_foods) banana_query [] _)
                empty_foods [ (lit "foods", JList []) ] _ _ _ _).
  - reflexivity.
  - reflexivity.
  - unfold is_success. simpl. lia.
  - reflexivity.
  - right. reflexivity.
Defined.


(** ** Further properties of the forwarder *)

Lemma pystr_eqb_eq (a b : pystr) : PyStr.eqb a b = true <-> a = b.
Proof.
  revert b. induction a as [|x a IH]; intros [|y b]; simpl;
    try (split; [discriminate | discriminate]); [tauto|].
  split.
  - intros H. apply andb_true_iff in H. destruct H as [Hx Ha].
    apply N.eqb_eq in Hx. apply IH in Ha. now subst.
  - intros H. inversion H; subst. apply andb_true_iff. split.
    + apply N.eqb_refl.
    + now apply IH.
Qed.

Lemma shape_report_not_mapping (v : json) (log : list Request) :
  (forall d, v <> JDict d) ->
  shape_report v log = (inl (attribute_error v "get"), log).
Proof.
  intros H. destruct v; try reflexivity. now destruct (H d).
Qed.




(** X3.  When the request does not get through (connection error,
    timeout), the forwarder fails with an internal error whose message is
    "Nutrition data fetch failed: " followed by the text of the transport
    exception. *)
Theorem fetch_transport_failure
        (cfg : Config) (provider : Provider) (query : pystr) (log : list Request)
        (cls msg : pystr) :
  provider (nutrition_request cfg query) = TransportFailed cls msg ->
  fetch_nutrition_data cfg provider query log =
  (inl (McpError {| code := INTERNAL_ERROR;
                    message := lit "Nutrition data fetch failed: " ++ msg |}),
   log ++ [nutrition_request cfg query]).
Proof.
  intros Hp. unfold fetch_nutrition_data, try_except, bind, client_post.
  rewrite Hp. reflexivity.
Qed.

Lemma fetch_transport_failure_witness :
  fetch_nutrition_data cfg0 unreachable banana_query [] =
  (inl (McpError {| code := INTERNAL_ERROR;
                    message := lit "Nutrition data fetch failed: "
                                 ++ lit "All connection attempts failed" |}),
   [] ++ [nutrition_request cfg0 banana_query]).
Proof.
  apply (fetch_transport_failure cfg0 unreachable banana_query []
           (lit "ConnectError") (lit "All connection attempts failed")).
  reflexivity.
Defined.

(** X4.  When a 2xx response has a body that does not decode as JSON, the
    forwarder fails with an internal error whose message is "Nutrition
    data fetch failed: " followed by the text of the decoding error. *)
Theorem fetch_malformed_json
        (cfg : Config) (provider : Provider) (query : pystr) (log : list Request)
        (r : Response) (msg : pystr) :
  provider (nutrition_request cfg query) = Responded r ->
  is_success r ->
  json_result r = inl msg ->
  fetch_nutrition_data cfg provider query log =
  (inl (McpError {| code := INTERNAL_ERROR;
                    message := lit "Nutrition data fetch failed: " ++ msg |}),
   log ++ [nutrition_request cfg query]).
Proof.
  intros Hp Hs Hj.
  unfold fetch_nutrition_data, try_except, bind, client_post.
  rewrite Hp. unfold raise_for_status.
  rewrite (is_success_test r Hs). unfold ret at 1, response_json.
  rewrite Hj. reflexivity.
Qed.

Lemma fetch_malformed_json_witness :
  fetch_nutrition_data cfg0 (responds html_page) banana_query [] =
  (inl (McpError {| code := INTERNAL_ERROR;
                    message := lit "Nutrition data fetch failed: "
                                 ++ lit "Expecting value: line 1 column 1 (char 0)" |}),
   [] ++ [nutrition_request cfg0 banana_query]).
Proof.
  apply (fetch_malformed_json cfg0 (responds html_page) banana_query []
           html_page (lit "Expecting value: line 1 column 1 (char 0)")).
  - reflexivity.
  - unfold is_success. simpl. lia.
  - reflexivity.
Defined.

(** X5.  When a 2xx response decodes to JSON that is not an object (a
    list, a string, a number, true, false or null), [data.get] raises and
    the forwarder fails with an internal error whose message is "Nutrition
    data fetch failed: '<type>' object has no attribute 'get'". *)
Theorem fetch_body_not_a_mapping
        (cfg : Config) (provider : Provider) (query : pystr) (log : list Request)
        (r : Response) (data : json) :
  provider (nutrition_request cfg query) = Responded r ->
  is_success r ->
  json_result r = inr data ->
  (forall d, data <> JDict d) ->
  fetch_nutrition_data cfg provider query log =
  (inl (McpError {| code := INTERNAL_ERROR;
                    message := lit "Nutrition data fetch failed: "
                                 ++ lit "'" ++ type_name data
                                 ++ lit "' object has no attribute 'get'" |}),
   log ++ [nutrition_request cfg query]).
Proof.
  intros Hp Hs Hj Hd.
  unfold fetch_nutrition_data, try_except, bind, client_post.
  rewrite Hp. unfold raise_for_status.
  rewrite (is_success_test r Hs). unfold ret at 1, response_json.
  rewrite Hj.
  destruct data; try reflexivity. now destruct (Hd d).
Qed.

Lemma fetch_body_not_a_mapping_witness :
  fetch_nutrition_data cfg0 (responds list_body) banana_query [] =
  (inl (McpError {| code := INTERNAL_ERROR;
                    message := lit "Nutrition data fetch failed: "
                                 ++ lit "'" ++ type_name (JList [])
                                 ++ lit "' object has no attribute 'get'" |}),
   [] ++ [nutrition_request cfg0 banana_query]).
Proof.
  apply (fetch_body_not_a_mapping cfg0 (responds list_body) banana_query []
           list_body (JList [])).
  - reflexivity.
  - unfold is_success. simpl. lia.
  - reflexivity.
  - intros d H. discriminate H.
Defined.

(** X6.  The no-match path is taken for every falsy value under "foods",
    not only for a missing key or an empty list: null, false, 0, 0.0, the
    empty string and the empty object all end in the internal error
    "Nutrition data fetch failed: No nutrition data found for this
    query". *)
Theorem fetch_falsy_foods
        (cfg : Config) (provider : Provider) (query : pystr) (log : list Request)
        (r : Response) (data : list (pystr * json)) (foods : json) :
  provider (nutrition_request cfg query) = Responded r ->
  is_success r ->
  json_result r = inr (JDict data) ->
  dict_lookup data (lit "foods") = Some foods ->
  truthy foods = false ->
  fetch_nutrition_data cfg provider query log =
  (inl (McpError
          {| code := INTERNAL_ERROR;
             message := lit "Nutrition data fetch failed: "
                          ++ lit "No nutrition data found for this query" |}),
   log ++ [nutrition_request cfg query]).
Proof.
  intros Hp Hs Hj Hf Ht.
  rewrite (fetch_on_mapping cfg provider query log r data Hp Hs Hj).
  unfold get_or, try_except. rewrite Hf, Ht. reflexivity.
Qed.

Lemma fetch_falsy_foods_witness :
  fetch_nutrition_data cfg0 (responds zero_foods) banana_query [] =
  (inl (McpError
          {| code := INTERNAL_ERROR;
             message := lit "Nutrition data fetch failed: "
                          ++ lit "No nutrition data found for this query" |}),
   [] ++ [nutrition_request cfg0 banana_query]).
Proof.
  apply (fetch_falsy_foods cfg0 (responds zero_foods) banana_query []
           zero_foods [ (lit "foods", JInt 0) ] (JInt 0)).
  - reflexivity.
  - unfold is_success. simpl. lia.
  - reflexivity.
  - reflexivity.
  - reflexivity.
Defined.

(** X7.  The forwarder returns a value only in two situations: the
    provider answered with a 2xx status and a JSON object whose "foods" is
    a non-empty list, and the value is its first element; or "foods" is a
    non-empty string, and the value is its first character.  The second
    case shows that "foods" is never checked to be a list. *)
Theorem fetch_success_inversion
        (cfg : Config) (provider : Provider) (query : pystr)
        (log log' : list Request) (v : json) :
  fetch_nutrition_data cfg provider query log = (inr v, log') ->
  exists r data foods,
    provider (nutrition_request cfg query) = Responded r /\
    is_success r /\
    json_result r = inr (JDict data) /\
    dict_lookup data (lit "foods") = Some foods /\
    ((exists rest, foods = JList (v :: rest)) \/
     (exists c rest, foods = JStr (c :: rest) /\ v = JStr [c])) /\
    log' = log ++ [nutrition_request cfg query].
Proof.
  unfold fetch_nutrition_data, try_except, bind, client_post,
    raise_for_status, response_json, py_get, py_getitem_key, py_getitem_0,
    ret, raise.
  destruct (provider (nutrition_request cfg query)) as [cls msg|r] eqn:Hp;
    cbv beta iota; [discriminate|].
  destruct ((200 <=? status_code r) && (status_code r <=? 299)) eqn:Hs;
    cbv beta iota; [|discriminate].
  destruct (json_result r) as [msg|data] eqn:Hj; cbv beta iota; [discriminate|].
  destruct data; cbv beta iota; try discriminate.
  destruct (dict_lookup d (lit "foods")) as [foods|] eqn:Hf;
    cbv beta iota; [|discriminate].
  destruct (negb (truthy foods)); cbv beta iota; [discriminate|].
  assert (Hok : is_success r).
  { unfold is_success. apply andb_true_iff in Hs. lia. }
  destruct foods as [| | | |[|c s]|[|x l]|]; cbv beta iota; try discriminate;
    intros H; inversion H; subst;
    exists r, d; eexists; repeat (split; [first [reflexivity | eassumption]|]);
    (split; [|reflexivity]).
  - right. exists c, s. split; reflexivity.
  - left. exists l. reflexivity.
Qed.

Lemma fetch_success_inversion_witness :
  exists r data foods,
    responds string_foods (nutrition_request cfg0 banana_query) = Responded r /\
    is_success r /\
    json_result r = inr (JDict data) /\
    dict_lookup data (lit "foods") = Some foods /\
    ((exists rest, foods = JList (JStr (lit "a") :: rest)) \/
     (exists c rest, foods = JStr (c :: rest) /\ JStr (lit "a") = JStr [c])) /\
    [nutrition_request cfg0 banana_query] = [] ++ [nutrition_request cfg0 banana_query].
Proof.
  apply (fetch_success_inversion cfg0 (responds string_foods) banana_query
           [] [nutrition_request cfg0 banana_query] (JStr (lit "a"))).
  reflexivity.
Defined.

(** ** Further properties of [analyze_nutrition] *)

(** Past the blank check, every exception is wrapped by the tool's
    handler. *)
Lemma analyze_raises_wrapped
      (cfg : Config) (provider : Provider) (food_query : pystr)
      (log log' : list Request) (e : exn) :
  blank food_query = false ->
  analyze_nutrition cfg provider food_query log = (inl e, log') ->
  exists e0, e = McpError {| code := INTERNAL_ERROR;
                             message := lit "Failed to analyze nutrition: "
                                          ++ str_exn e0 |}.
Proof.
  intros Hb. rewrite (analyze_nonblank cfg provider food_query Hb).
  unfold try_except.
  match goal with
  | |- context [bind ?m ?k log] => destruct (bind m k log) as [[e0|v] l0]
  end; [|discriminate].
  unfold raise. intros H. inversion H; subst. exists e0. reflexivity.
Qed.


(** X9.  There is no partial success: whenever [analyze_nutrition]
    returns, the forwarder had returned a mapping, and the result is the
    complete report of that mapping: the six top-level keys in order, each
    of the 13 leaf fields holding the record's value or its default, and
    the constant source. *)
Theorem analyze_nutrition_success_inversion
        (cfg : Config) (provider : Provider) (food_query : pystr)
        (log log' : list Request) (rep : json) :
  analyze_nutrition cfg provider food_query log = (inr rep, log') ->
  blank food_query = false /\
  exists record top,
    fetch_nutrition_data cfg provider food_query log = (inr (JDict record), log') /\
    rep = JDict top /\
    List.map fst top = [ lit "food"; lit "serving"; lit "calories";
                         lit "macronutrients"; lit "micronutrients"; lit "source" ] /\
    Forall (fun '(path, key, dflt) =>
              lookup_path path rep = Some (get_or record key dflt))
           report_fields /\
    lookup_path [lit "source"] rep = Some (JStr (lit "Nutritionix API")).
Proof.
  intros H.
  destruct (blank food_query) eqn:Hb.
  - unfold analyze_nutrition in H. rewrite not_strip_blank, Hb in H.
    discriminate H.
  - split; [reflexivity|].
    rewrite (analyze_nonblank cfg provider food_query Hb) in H.
    unfold try_except, bind in H.
    destruct (fetch_nutrition_data cfg provider food_query log) as [[e|v] l];
      [discriminate H|].
    destruct v as [| | | | | |record]; try discriminate H.
    rewrite shape_report_dict in H. inversion H; subst.
    exists record. eexists. split; [reflexivity|]. split; [reflexivity|].
    split; [reflexivity|]. split; [|reflexivity].
    unfold report_fields. repeat constructor.
Qed.

Lemma analyze_nutrition_success_inversion_witness :
  blank banana_query = false /\
  exists record top,
    fetch_nutrition_data cfg0 (responds (one_food banana_record)) banana_query []
      = (inr (JDict record), [nutrition_request cfg0 banana_query]) /\
    fst (shape_report (JDict banana_record) []) = inr (JDict top) /\
    List.map fst top = [ lit "food"; lit "serving"; lit "calories";
                         lit "macronutrients"; lit "micronutrients"; lit "source" ] /\
    Forall (fun '(path, key, dflt) =>
              lookup_path path (JDict top) = Some (get_or record key dflt))
           report_fields /\
    lookup_path [lit "source"] (JDict top) = Some (JStr (lit "Nutritionix API")).
Proof.
  destruct (analyze_nutrition_success_inversion cfg0
              (responds (one_food banana_record)) banana_query
              [] [nutrition_request cfg0 banana_query]
              match fst (shape_report (JDict banana_record) []) with
              | inr rep => rep
              | inl _ => JNull
              end eq_refl)
    as (Hb & record & top & Hf & Hrep & Hkeys & Hrows & Hsrc).
  split; [exact Hb|].
  exists record, top. split; [exact Hf|].
  split; [now rewrite <- Hrep|].
  split; [exact Hkeys|].
  split; [now rewrite <- Hrep|now rewrite <- Hrep].
Defined.

(** X10.  The two error codes separate the causes: a failure of
    [analyze_nutrition] is always an [McpError], with code
    [INVALID_PARAMS] exactly when the query is blank and code
    [INTERNAL_ERROR] exactly when it is not. *)
Theorem analyze_nutrition_error_codes
        (cfg : Config) (provider : Provider) (food_query : pystr)
        (log log' : list Request) (e : exn) :
  analyze_nutrition cfg provider food_query log = (inl e, log') ->
  exists d,
    e = McpError d /\
    (code d = INVALID_PARAMS <-> blank food_query = true) /\
    (code d = INTERNAL_ERROR <-> blank food_query = false).
Proof.
  intros H. destruct (blank food_query) eqn:Hb.
  - unfold analyze_nutrition in H. rewrite not_strip_blank, Hb in H.
    unfold raise in H. inversion H; subst.
    eexists. split; [reflexivity|]. simpl.
    split; split; try reflexivity; discriminate.
  - destruct (analyze_raises_wrapped cfg provider food_query log log' e Hb H)
      as [e0 ->].
    eexists. split; [reflexivity|]. simpl.
    split; split; try reflexivity; discriminate.
Qed.

Lemma analyze_nutrition_error_codes_witness :
  exists d,
    McpError {| code := INTERNAL_ERROR;
                message := lit "Failed to analyze nutrition: Nutritionix API error: bad request" |}
    = McpError d /\
    (code d = INVALID_PARAMS <-> blank banana_query = true) /\
    (code d = INTERNAL_ERROR <-> blank banana_query = false).
Proof.
  apply (analyze_nutrition_error_codes cfg0 (responds bad_request) banana_query
           [] [nutrition_request cfg0 banana_query]).
  reflexivity.
Defined.

(** An error of the forwarder reaches the caller with the tool's prefix
    put in front of its message. *)
Lemma analyze_wraps_fetch_error
      (cfg : Config) (provider : Provider) (food_query : pystr)
      (log log' : list Request) (e : exn) :
  blank food_query = false ->
  fetch_nutrition_data cfg provider food_query log = (inl e, log') ->
  analyze_nutrition cfg provider food_query log =
  (inl (McpError {| code := INTERNAL_ERROR;
                    message := lit "Failed to analyze nutrition: " ++ str_exn e |}),
   log').
Proof.
  intros Hb Hf. rewrite (analyze_nonblank cfg provider food_query Hb).
  unfold try_except, bind. rewrite Hf. reflexivity.
Qed.

(** X11.  For a non-blank query answered with a 4xx or 5xx status,
    [analyze_nutrition] fails with an internal error whose message is
    "Failed to analyze nutrition: Nutritionix API error: " followed by the
    provider's body text: the body still reaches the caller, behind both
    prefixes. *)
Theorem analyze_nutrition_http_failure
        (cfg : Config) (provider : Provider) (food_query : pystr)
        (log : list Request) (r : Response) :
  blank food_query = false ->
  provider (nutrition_request cfg food_query) = Responded r ->
  400 <= status_code r <= 599 ->
  analyze_nutrition cfg provider food_query log =
  (inl (McpError
          {| code := INTERNAL_ERROR;
             message := lit "Failed to analyze nutrition: "
                          ++ lit "Nutritionix API error: " ++ text r |}),
   log ++ [nutrition_request cfg food_query]).
Proof.
  intros Hb Hp Hs.
  rewrite (analyze_wraps_fetch_error cfg provider food_query log _ _ Hb
             (fetch_http_error cfg provider food_query log r Hp Hs)).
  reflexivity.
Qed.

Lemma analyze_nutrition_http_failure_witness :
  analyze_nutrition cfg0 (responds bad_request) banana_query [] =
  (inl (McpError
          {| code := INTERNAL_ERROR;
             message := lit "Failed to analyze nutrition: "
                          ++ lit "Nutritionix API error: " ++ text bad_request |}),
   [] ++ [nutrition_request cfg0 banana_query]).
Proof.
  apply (analyze_nutrition_http_failure cfg0 (responds bad_request)
           banana_query [] bad_request).
  - reflexivity.
  - reflexivity.
  - simpl. lia.
Defined.

(** X12.  When the forwarder returns something that is not a mapping (the
    first element of "foods" is a number, a string, a list, ..., or
    "foods" was a string), the first [nutrition_data.get] raises and
    [analyze_nutrition] fails with the internal error "Failed to analyze
    nutrition: '<type>' object has no attribute 'get'"; no report is
    built. *)
Theorem analyze_nutrition_record_not_a_mapping
        (cfg : Config) (provider : Provider) (food_query : pystr)
        (log log' : list Request) (v : json) :
  blank food_query = false ->
  fetch_nutrition_data cfg provider food_query log = (inr v, log') ->
  (forall d, v <> JDict d) ->
  analyze_nutrition cfg provider food_query log =
  (inl (McpError
          {| code := INTERNAL_ERROR;
             message := lit "Failed to analyze nutrition: "
                          ++ lit "'" ++ type_name v
                          ++ lit "' object has no attribute 'get'" |}),
   log').
Proof.
  intros Hb Hf Hv. rewrite (analyze_nonblank cfg provider food_query Hb).
  unfold try_except, bind. rewrite Hf.
  rewrite (shape_report_not_mapping v log' Hv). reflexivity.
Qed.

Lemma analyze_nutrition_record_not_a_mapping_witness :
  analyze_nutrition cfg0 (responds number_food) banana_query [] =
  (inl (McpError
          {| code := INTERNAL_ERROR;
             message := lit "Failed to analyze nutrition: "
                          ++ lit "'" ++ type_name (JInt 5)
                          ++ lit "' object has no attribute 'get'" |}),
   [nutrition_request cfg0 banana_query]).
Proof.
  apply (analyze_nutrition_record_not_a_mapping cfg0 (responds number_food)
           banana_query [] [nutrition_request cfg0 banana_query] (JInt 5)).
  - reflexivity.
  - reflexivity.
  - intros d H. discriminate H.
Defined.

(** X13.  The report depends on the 13 provider fields of the table and
    on nothing else: two records that agree on those keys are shaped into
    the same report, so no other field of the provider's record reaches
    the caller. *)
Theorem shape_report_reads_table_keys_only
        (record1 record2 : list (pystr * json)) (log : list Request) :
  Forall (fun '(_, key, _) => dict_lookup record1 key = dict_lookup record2 key)
         report_fields ->
  shape_report (JDict record1) log = shape_report (JDict record2) log.
Proof.
  intros H. rewrite !shape_report_dict. unfold get_or.
  unfold report_fields in H.
  repeat match goal with
         | H : Forall _ (_ :: _) |- _ =>
             let E := fresh "E" in
             let T := fresh "T" in
             inversion H as [|? ? E T]; subst; clear H; rewrite E; clear E
         end.
  reflexivity.
Qed.

Lemma shape_report_reads_table_keys_only_witness :
  shape_report (JDict banana_with_photo) [] = shape_report (JDict banana_record) [].
Proof.
  apply (shape_report_reads_table_keys_only banana_with_photo banana_record []).
  unfold report_fields. repeat constructor.
Defined.

(** ** Start-up and authentication *)

(** X14.  A bearer token is accepted exactly when it equals, code point
    for code point, the token the provider was built with; the identity
    granted is then always client "puch-client" with the single scope "*"
    and no expiry.  Every other string is refused. *)
Theorem load_access_token_accepts_only_own_token
        (self : SimpleBearerAuthProvider) (tok : pystr) :
  (forall a,
     load_access_token self tok = Some a <->
     tok = self_token self /\
     a = {| token := self_token self;
            client_id := lit "puch-client";
            scopes := [lit "*"];
            expires_at := None |})
  /\ (load_access_token self tok = None <-> tok <> self_token self).
Proof.
  unfold load_access_token.
  destruct (PyStr.eqb tok (self_token self)) eqn:E.
  - apply pystr_eqb_eq in E. subst tok. split.
    + intros a. split.
      * intros H. inversion H. split; reflexivity.
      * intros [_ ->]. reflexivity.
    + split; [discriminate|]. intros H. now destruct H.
  - assert (Hne : tok <> self_token self).
    { intros H. apply pystr_eqb_eq in H. congruence. }
    split.
    + intros a. split; [discriminate|]. intros [H _]. contradiction.
    + split; intros _; [exact Hne|reflexivity].
Qed.

(** The configuration a successful start-up returns holds the four
    values of the environment. *)
Lemma read_config_cases (environ : Environ) (cfg : Config) :
  read_config environ = inr cfg ->
  environ (lit "AUTH_TOKEN") = Some (TOKEN cfg) /\
  environ (lit "MY_NUMBER") = Some (MY_NUMBER cfg) /\
  environ (lit "NUTRITIONIX_APP_ID") = Some (NUTRITIONIX_APP_ID cfg) /\
  environ (lit "NUTRITIONIX_APP_KEY") = Some (NUTRITIONIX_APP_KEY cfg).
Proof.
  unfold read_config.
  destruct (environ (lit "AUTH_TOKEN")); [|discriminate].
  destruct (environ (lit "MY_NUMBER")); [|discriminate].
  destruct (environ (lit "NUTRITIONIX_APP_ID")); [|discriminate].
  destruct (environ (lit "NUTRITIONIX_APP_KEY")); [|discriminate].
  intros H. inversion H. simpl. repeat split.
Qed.

(** X15.  The module starts exactly when the four variables AUTH_TOKEN,
    MY_NUMBER, NUTRITIONIX_APP_ID and NUTRITIONIX_APP_KEY are all set, and
    the configuration then holds their values unchanged.  Being set is all
    that is asked: an empty value passes. *)
Theorem read_config_iff_all_set (environ : Environ) (cfg : Config) :
  read_config environ = inr cfg <->
  environ (lit "AUTH_TOKEN") = Some (TOKEN cfg) /\
  environ (lit "MY_NUMBER") = Some (MY_NUMBER cfg) /\
  environ (lit "NUTRITIONIX_APP_ID") = Some (NUTRITIONIX_APP_ID cfg) /\
  environ (lit "NUTRITIONIX_APP_KEY") = Some (NUTRITIONIX_APP_KEY cfg).
Proof.
  split.
  - apply read_config_cases.
  - unfold read_config. intros (-> & -> & -> & ->). destruct cfg. reflexivity.
Qed.

(** X16.  When the module does not start, it stops with an
    [AssertionError] "Please set <name> in your .env file", where <name>
    is the first of the four variables, in the order AUTH_TOKEN,
    MY_NUMBER, NUTRITIONIX_APP_ID, NUTRITIONIX_APP_KEY, that is unset;
    later missing variables are not reported. *)
Theorem read_config_reports_first_unset (environ : Environ) (e : exn) :
  read_config environ = inl e ->
  exists before name after,
    required_variables = before ++ name :: after /\
    Forall (fun n => environ n <> None) before /\
    environ name = None /\
    e = PyExc (lit "AssertionError")
              (lit "Please set " ++ name ++ lit " in your .env file").
Proof.
  unfold read_config.
  destruct (environ (lit "AUTH_TOKEN")) eqn:E1.
  2:{ intros H. inversion H.
      exists [], (lit "AUTH_TOKEN"),
        [lit "MY_NUMBER"; lit "NUTRITIONIX_APP_ID"; lit "NUTRITIONIX_APP_KEY"].
      repeat split; [constructor | exact E1]. }
  destruct (environ (lit "MY_NUMBER")) eqn:E2.
  2:{ intros H. inversion H.
      exists [lit "AUTH_TOKEN"], (lit "MY_NUMBER"),
        [lit "NUTRITIONIX_APP_ID"; lit "NUTRITIONIX_APP_KEY"].
      repeat split; [|exact E2].
      repeat constructor; congruence. }
  destruct (environ (lit "NUTRITIONIX_APP_ID")) eqn:E3.
  2:{ intros H. inversion H.
      exists [lit "AUTH_TOKEN"; lit "MY_NUMBER"], (lit "NUTRITIONIX_APP_ID"),
        [lit "NUTRITIONIX_APP_KEY"].
      repeat split; [|exact E3].
      repeat constructor; congruence. }
  destruct (environ (lit "NUTRITIONIX_APP_KEY")) eqn:E4.
  2:{ intros H. inversion H.
      exists [lit "AUTH_TOKEN"; lit "MY_NUMBER"; lit "NUTRITIONIX_APP_ID"],
        (lit "NUTRITIONIX_APP_KEY"), [].
      repeat split; [|exact E4].
      repeat constructor; congruence. }
  discriminate.
Qed.

Lemma read_config_reports_first_unset_witness :
  exists before name after,
    required_variables = before ++ name :: after /\
    Forall (fun n => environ_without_number n <> None) before /\
    environ_without_number name = None /\
    assertion_error "Please set MY_NUMBER in your .env file"
    = PyExc (lit "AssertionError")
            (lit "Please set " ++ name ++ lit " in your .env file").
Proof.
  apply (read_config_reports_first_unset environ_without_number
           (assertion_error "Please set MY_NUMBER in your .env file")).
  reflexivity.
Defined.

(** X17.  What the server does with the configuration it started with:
    [validate] answers with the value of MY_NUMBER in the environment; a
    bearer token is accepted exactly when it is the value of AUTH_TOKEN;
    and every request to the provider carries the values of
    NUTRITIONIX_APP_ID and NUTRITIONIX_APP_KEY as its [x-app-id] and
    [x-app-key] headers. *)
Theorem configuration_reaches_tools (environ : Environ) (cfg : Config) :
  read_config environ = inr cfg ->
  (forall log,
     exists n, validate cfg log = (inr n, log) /\
               environ (lit "MY_NUMBER") = Some n)
  /\
  (forall tok,
     (exists a, load_access_token (mcp_auth cfg) tok = Some a) <->
     environ (lit "AUTH_TOKEN") = Some tok)
  /\
  (forall query,
     exists app_id app_key,
       headers (nutrition_request cfg query) =
       [ (lit "x-app-id", app_id); (lit "x-app-key", app_key);
         (lit "Content-Type", lit "application/json") ] /\
       environ (lit "NUTRITIONIX_APP_ID") = Some app_id /\
       environ (lit "NUTRITIONIX_APP_KEY") = Some app_key).
Proof.
  intros H. apply read_config_cases in H. destruct H as (Ht & Hn & Hi & Hk).
  split; [|split].
  - intros log. exists (MY_NUMBER cfg). split; [reflexivity|exact Hn].
  - intros tok. unfold load_access_token, mcp_auth. simpl.
    destruct (PyStr.eqb tok (TOKEN cfg)) eqn:E.
    + apply pystr_eqb_eq in E. subst tok. split; [intros _; exact Ht|eauto].
    + split.
      * intros [a Ha]. discriminate Ha.
      * intros Htok. rewrite Ht in Htok. inversion Htok as [Heq].
        rewrite Heq in E.
        assert (PyStr.eqb tok tok = true) by now apply pystr_eqb_eq.
        congruence.
  - intros query. exists (NUTRITIONIX_APP_ID cfg), (NUTRITIONIX_APP_KEY cfg).
    split; [reflexivity|]. split; assumption.
Qed.

Lemma configuration_reaches_tools_witness :
  (forall log,
     exists n, validate cfg0 log = (inr n, log) /\
               full_environ (lit "MY_NUMBER") = Some n)
  /\
  (forall tok,
     (exists a, load_access_token (mcp_auth cfg0) tok = Some a) <->
     full_environ (lit "AUTH_TOKEN") = Some tok)
  /\
  (forall query,
     exists app_id app_key,
       headers (nutrition_request cfg0 query) =
       [ (lit "x-app-id", app_id); (lit "x-app-key", app_key);
         (lit "Content-Type", lit "application/json") ] /\
       full_environ (lit "NUTRITIONIX_APP_ID") = Some app_id /\
       full_environ (lit "NUTRITIONIX_APP_KEY") = Some app_key).
Proof.
  apply (configuration_reaches_tools full_environ cfg0).
  reflexivity.
Defined.
